(** * RBWR-display: the reactor model of [rbwr_desktop_app.py]

    A shallow embedding of [RBWRReactor] (the state and its [update]) and of
    the [RBWRApp] callbacks that change the reactor ([scram_reactor],
    [toggle_circulation], [toggle_auto], the body of [update_loop]).

    Numbers.  Python's [int] and [float] values are both embedded in [Q]:
    arithmetic is exact, where the program rounds to binary64.  Every
    statement below is about this exact arithmetic.  Literals are the
    decimal literals of the source ([0.7] is [7 # 10]).

    Randomness.  [random.uniform(a, b)] is a parameter [uniform : rng]: the
    answer of the [k]-th call of the process.  [update] threads the number
    of calls made so far, so the draws of one tick and of successive ticks
    are independent of each other. *)

From Stdlib Require Import QArith Qpower Lqa ZArith Lia Bool List String.
Import ListNotations.

Open Scope Q_scope.

(** ** Python built-ins used by the source *)

Module Py.

(** [a < b] on numbers, as a boolean. *)
Definition ltb (a b : Q) : bool := negb (Qle_bool b a).

(** [max(a, b)]: the first argument unless the second is greater. *)
Definition max (a b : Q) : Q := if ltb a b then b else a.

(** [min(a, b)]: the first argument unless the second is smaller. *)
Definition min (a b : Q) : Q := if ltb b a then b else a.

(** [int(x)]: truncation toward zero. *)
Definition int (x : Q) : Q := inject_Z (Z.quot (Qnum x) (Z.pos (Qden x))).

(** [x.is_integer()]: [x] has no fractional part. *)
Definition is_integer (x : Q) : bool :=
  (Z.rem (Qnum x) (Z.pos (Qden x)) =? 0)%Z.

End Py.

(** ** The random source *)

(** [uniform k a b] is what the [k]-th call [random.uniform(a, b)] returns. *)
Definition rng : Type := nat -> Q -> Q -> Q.

(** One call of [random.uniform(a, b)]: the value and the new call count. *)
Definition draw (uniform : rng) (k : nat) (a b : Q) : Q * nat :=
  (uniform k a b, S k).

(** A source that respects the contract of [random.uniform]. *)
Definition in_range (uniform : rng) : Prop :=
  forall k a b, a <= b -> a <= uniform k a b <= b.

(** Stubs: every draw is [1.0]; every draw is the middle of its interval;
    every draw is the lower end of its interval. *)
Definition stub_one : rng := fun _ _ _ => 1.0.
Definition stub_mid : rng := fun _ a b => (a + b) / 2.
Definition stub_low : rng := fun _ a _ => a.

(** ** class RBWRReactor *)

Record RBWRReactor : Type := mkReactor {
  thermal_power : Q;
  temperature : Q;
  pressure : Q;
  feedwater_flow : Q;
  turbine_speed : Q;
  generator_load : Q;
  rods_position : Q;
  circulation_flow : Q;
  xenon_poisoning : Q;
  fuel_remaining : Q;
  is_scrammed : bool;
  is_auto : bool
}.

(** [RBWRReactor.__init__] *)
Definition init : RBWRReactor := {|
  thermal_power := 0.0001;
  temperature := 31;
  pressure := 0;
  feedwater_flow := 0;
  turbine_speed := 0;
  generator_load := 0;
  rods_position := 0.0;
  circulation_flow := 0;
  xenon_poisoning := 10.1;
  fuel_remaining := 98.0;
  is_scrammed := false;
  is_auto := false
|}.

(** Attribute assignment [self.f = v], one setter per attribute. *)
Definition set_thermal_power (v : Q) (r : RBWRReactor) : RBWRReactor :=
  mkReactor v (temperature r) (pressure r) (feedwater_flow r)
    (turbine_speed r) (generator_load r) (rods_position r)
    (circulation_flow r) (xenon_poisoning r) (fuel_remaining r)
    (is_scrammed r) (is_auto r).
Definition set_temperature (v : Q) (r : RBWRReactor) : RBWRReactor :=
  mkReactor (thermal_power r) v (pressure r) (feedwater_flow r)
    (turbine_speed r) (generator_load r) (rods_position r)
    (circulation_flow r) (xenon_poisoning r) (fuel_remaining r)
    (is_scrammed r) (is_auto r).
Definition set_pressure (v : Q) (r : RBWRReactor) : RBWRReactor :=
  mkReactor (thermal_power r) (temperature r) v (feedwater_flow r)
    (turbine_speed r) (generator_load r) (rods_position r)
    (circulation_flow r) (xenon_poisoning r) (fuel_remaining r)
    (is_scrammed r) (is_auto r).
Definition set_feedwater_flow (v : Q) (r : RBWRReactor) : RBWRReactor :=
  mkReactor (thermal_power r) (temperature r) (pressure r) v
    (turbine_speed r) (generator_load r) (rods_position r)
    (circulation_flow r) (xenon_poisoning r) (fuel_remaining r)
    (is_scrammed r) (is_auto r).
Definition set_turbine_speed (v : Q) (r : RBWRReactor) : RBWRReactor :=
  mkReactor (thermal_power r) (temperature r) (pressure r) (feedwater_flow r)
    v (generator_load r) (rods_position r)
    (circulation_flow r) (xenon_poisoning r) (fuel_remaining r)
    (is_scrammed r) (is_auto r).
Definition set_generator_load (v : Q) (r : RBWRReactor) : RBWRReactor :=
  mkReactor (thermal_power r) (temperature r) (pressure r) (feedwater_flow r)
    (turbine_speed r) v (rods_position r)
    (circulation_flow r) (xenon_poisoning r) (fuel_remaining r)
    (is_scrammed r) (is_auto r).
Definition set_rods_position (v : Q) (r : RBWRReactor) : RBWRReactor :=
  mkReactor (thermal_power r) (temperature r) (pressure r) (feedwater_flow r)
    (turbine_speed r) (generator_load r) v
    (circulation_flow r) (xenon_poisoning r) (fuel_remaining r)
    (is_scrammed r) (is_auto r).
Definition set_circulation_flow (v : Q) (r : RBWRReactor) : RBWRReactor :=
  mkReactor (thermal_power r) (temperature r) (pressure r) (feedwater_flow r)
    (turbine_speed r) (generator_load r) (rods_position r)
    v (xenon_poisoning r) (fuel_remaining r)
    (is_scrammed r) (is_auto r).
Definition set_xenon_poisoning (v : Q) (r : RBWRReactor) : RBWRReactor :=
  mkReactor (thermal_power r) (temperature r) (pressure r) (feedwater_flow r)
    (turbine_speed r) (generator_load r) (rods_position r)
    (circulation_flow r) v (fuel_remaining r)
    (is_scrammed r) (is_auto r).
Definition set_fuel_remaining (v : Q) (r : RBWRReactor) : RBWRReactor :=
  mkReactor (thermal_power r) (temperature r) (pressure r) (feedwater_flow r)
    (turbine_speed r) (generator_load r) (rods_position r)
    (circulation_flow r) (xenon_poisoning r) v
    (is_scrammed r) (is_auto r).
Definition set_is_scrammed (v : bool) (r : RBWRReactor) : RBWRReactor :=
  mkReactor (thermal_power r) (temperature r) (pressure r) (feedwater_flow r)
    (turbine_speed r) (generator_load r) (rods_position r)
    (circulation_flow r) (xenon_poisoning r) (fuel_remaining r)
    v (is_auto r).
Definition set_is_auto (v : bool) (r : RBWRReactor) : RBWRReactor :=
  mkReactor (thermal_power r) (temperature r) (pressure r) (feedwater_flow r)
    (turbine_speed r) (generator_load r) (rods_position r)
    (circulation_flow r) (xenon_poisoning r) (fuel_remaining r)
    (is_scrammed r) v.

(** The SCRAM branch of [update] (lines 28-32): no call of [random]. *)
Definition update_scram (self : RBWRReactor) : RBWRReactor :=
  let self := set_thermal_power (thermal_power self * 0.7) self in
  let self := set_temperature (temperature self - 5) self in
  let self := set_pressure (pressure self * 0.8) self in
  let self := set_turbine_speed (turbine_speed self * 0.9) self in
  set_generator_load (thermal_power self * 12) self.

(** The auto-mode rod adjustment (lines 40-44). *)
Definition auto_rods (self : RBWRReactor) : RBWRReactor :=
  let target_power := 95.0 in
  if Py.ltb (thermal_power self) target_power
  then set_rods_position (Py.max 0 (rods_position self - 0.5)) self
  else set_rods_position (Py.min 100 (rods_position self + 0.5)) self.

(** The normal-operation branch of [update] (lines 35-72), statement by
    statement; [k] counts the calls of [random.uniform] made so far. *)
Definition update_normal (uniform : rng) (k : nat) (self : RBWRReactor)
  : RBWRReactor * nat :=
  let rod_effect := (100 - rods_position self) / 100 in
  let self := if is_auto self then auto_rods self else self in
  let '(u, k) := draw uniform k 0.95 1.05 in
  let power_change := rod_effect * u in
  let self :=
    set_thermal_power
      (Py.max 0.0001 (Py.min 120.0 (thermal_power self * power_change))) self in
  let '(u, k) := draw uniform k (-2) 2 in
  let self := set_temperature (30 + thermal_power self * 3 + u) self in
  let '(u, k) := draw uniform k (-100) 100 in
  let self := set_pressure (Py.int (thermal_power self * 60 + u)) self in
  let '(u, k) := draw uniform k (-10) 10 in
  let self := set_feedwater_flow (thermal_power self * 4 + u) self in
  let '(u, k) := draw uniform k (-50) 50 in
  let self := set_turbine_speed (Py.int (thermal_power self * 22 + u)) self in
  let self := set_generator_load (Py.int (thermal_power self * 12)) self in
  let '(self, k) :=
    if negb (is_auto self) then
      let '(u, k) := draw uniform k (-0.1) 0.1 in
      let self := set_rods_position (rods_position self + u) self in
      (set_rods_position (Py.max 0 (Py.min 100 (rods_position self))) self, k)
    else (self, k) in
  let self :=
    set_circulation_flow (Py.min 100 (Py.max 0 (circulation_flow self))) self in
  let self :=
    if Py.ltb (circulation_flow self) 50
    then set_temperature (temperature self + 2) self else self in
  let '(u, k) := draw uniform k (-0.5) 0.5 in
  let self :=
    set_xenon_poisoning (10.1 + thermal_power self / 5 + u) self in
  let self := set_xenon_poisoning (Py.min 35.0 (xenon_poisoning self)) self in
  let self := set_fuel_remaining (fuel_remaining self - 0.0001) self in
  let self := set_fuel_remaining (Py.max 0 (fuel_remaining self)) self in
  (self, k).

(** [RBWRReactor.update] *)
Definition update (uniform : rng) (k : nat) (self : RBWRReactor)
  : RBWRReactor * nat :=
  if is_scrammed self then (update_scram self, k)
  else update_normal uniform k self.


(** ** class RBWRApp: the callbacks that change the reactor *)

(** The [state] option of a Tk widget. *)
Inductive tk_state : Type := NORMAL | DISABLED.

(** The part of [RBWRApp] that the callbacks read or write: the reactor,
    the [state] of the two widgets that [scram_reactor] configures, and the
    number of calls of [random.uniform] made so far.  The AUTO MODE and
    SCRAM buttons are created enabled and never configured afterwards. *)
Record RBWRApp : Type := mkApp {
  reactor : RBWRReactor;
  rod_scale_state : tk_state;
  circ_button_state : tk_state;
  rng_calls : nat
}.

(** [RBWRApp.__init__]: a fresh reactor, every widget enabled. *)
Definition app_init : RBWRApp := {|
  reactor := init;
  rod_scale_state := NORMAL;
  circ_button_state := NORMAL;
  rng_calls := 0
|}.

Definition set_reactor (r : RBWRReactor) (self : RBWRApp) : RBWRApp :=
  mkApp r (rod_scale_state self) (circ_button_state self) (rng_calls self).

(** [RBWRApp.scram_reactor]: the SCRAM / RESET SCRAM button. *)
Definition scram_reactor (self : RBWRApp) : RBWRApp :=
  if is_scrammed (reactor self) then
    mkApp (set_is_scrammed false (reactor self)) NORMAL NORMAL (rng_calls self)
  else
    mkApp (set_is_auto false (set_is_scrammed true (reactor self)))
      DISABLED DISABLED (rng_calls self).

(** [RBWRApp.toggle_circulation] *)
Definition toggle_circulation (self : RBWRApp) : RBWRApp :=
  if Py.ltb (circulation_flow (reactor self)) 50
  then set_reactor (set_circulation_flow 100 (reactor self)) self
  else set_reactor (set_circulation_flow 0 (reactor self)) self.

(** [RBWRApp.toggle_auto] *)
Definition toggle_auto (self : RBWRApp) : RBWRApp :=
  set_reactor (set_is_auto (negb (is_auto (reactor self))) (reactor self)) self.

(** [self.reactor.update()] on the application's reactor and random source. *)
Definition reactor_update (uniform : rng) (self : RBWRApp) : RBWRApp :=
  let '(r, k) := update uniform (rng_calls self) (reactor self) in
  mkApp r (rod_scale_state self) (circ_button_state self) k.

(** One iteration of [update_loop] (lines 207-208); [slider] is what
    [self.rod_scale.get()] returns at that moment. *)
Definition update_loop (uniform : rng) (slider : Q) (self : RBWRApp) : RBWRApp :=
  let self := set_reactor (set_rods_position slider (reactor self)) self in
  reactor_update uniform self.

(** What can happen to a running application. *)
Inductive event : Type :=
| Update                 (* a bare [reactor.update()] *)
| Loop (slider : Q)      (* an iteration of [update_loop] *)
| Scram                  (* [scram_reactor]: scram, or reset when scrammed *)
| Circulation            (* [toggle_circulation] *)
| Auto.                  (* [toggle_auto] *)

Definition step (uniform : rng) (self : RBWRApp) (e : event) : RBWRApp :=
  match e with
  | Update => reactor_update uniform self
  | Loop slider => update_loop uniform slider self
  | Scram => scram_reactor self
  | Circulation => toggle_circulation self
  | Auto => toggle_auto self
  end.

Definition run (uniform : rng) (self : RBWRApp) (es : list event) : RBWRApp :=
  fold_left (step uniform) es self.

(** ** Declared domains of the bounded attributes *)

Definition in_domain (r : RBWRReactor) : Prop :=
  0.0001 <= thermal_power r <= 120.0 /\
  0 <= rods_position r <= 100 /\
  0 <= xenon_poisoning r <= 35 /\
  0 <= fuel_remaining r <= 100.

(** ** States and predicates the properties are stated with *)

(** The state right after the SCRAM button is pressed on a fresh reactor. *)
Definition scrammed_init : RBWRReactor := reactor (scram_reactor app_init).

(** Every [Auto] event of [es], run from [a], finds the reactor not
    scrammed. *)
Fixpoint auto_only_unscrammed (u : rng) (a : RBWRApp) (es : list event)
  : Prop :=
  match es with
  | [] => True
  | e :: es' =>
      (e = Auto -> is_scrammed (reactor a) = false) /\
      auto_only_unscrammed u (step u a e) es'
  end.

(** [is_scrammed] and [is_auto] are not both true. *)
Definition exclusive (a : RBWRApp) : Prop :=
  is_scrammed (reactor a) && is_auto (reactor a) = false.

(** The power update in the order of the specification's words: the rods
    are adjusted first and [rodEffect] is read from the adjusted rods. *)
Definition spec_auto_power (u : rng) (k : nat) (s : RBWRReactor) : Q :=
  let rodsPositionPercent := rods_position (auto_rods s) in
  let rodEffect := (100 - rodsPositionPercent) / 100 in
  Py.max 0.0001
    (Py.min 120.0 (thermal_power s * rodEffect * u k 0.95 1.05)).

(** A reactor in auto mode at 50 % power with the rods at 10 %. *)
Definition auto_half_power : RBWRReactor :=
  set_is_auto true (set_rods_position 10 (set_thermal_power 50 init)).

(** The starting state of C5: the fresh reactor (rods 0, manual, not
    scrammed, power 0.0001) with the circulation at 100. *)
Definition at_rest : RBWRReactor := set_circulation_flow 100 init.

(** ** The status display of [RBWRApp]

    What [setup_ui] creates and [update_display] configures besides the ten
    formatted values (lines 218-227, which need the text of a binary64 and
    are left out): the status bar, the SCRAM button's label and colour, the
    AUTO MODE button's colour, and the value last handed to
    [rod_scale.set] (what the Tk scale keeps of it is outside the
    program). *)

Record Display : Type := mkDisplay {
  status_var : string;
  scram_button_text : string;
  scram_button_bg : string;
  auto_button_bg : string;
  rod_scale_set : Q
}.

(** [setup_ui] (lines 155-187): the widgets as created. *)
Definition setup_ui : Display := {|
  status_var := "Status: NORMAL";
  scram_button_text := "SCRAM REACTOR";
  scram_button_bg := "darkred";
  auto_button_bg := "darkgreen";
  rod_scale_set := 0
|}.

(** [update_display] (lines 229-244). *)
Definition update_display (self : RBWRApp) (d : Display) : Display :=
  let d :=
    if negb (is_scrammed (reactor self))
    then mkDisplay (status_var d) (scram_button_text d) (scram_button_bg d)
           (auto_button_bg d) (rods_position (reactor self))
    else d in
  if is_scrammed (reactor self) then
    mkDisplay "Status: SCRAMMED - RODS INSERTING" "RESET SCRAM" "orange"
      (auto_button_bg d) (rod_scale_set d)
  else
    let d :=
      if is_auto (reactor self)
      then mkDisplay "Status: AUTO MODE ACTIVE" (scram_button_text d)
             (scram_button_bg d) "green" (rod_scale_set d)
      else mkDisplay "Status: MANUAL CONTROL" (scram_button_text d)
             (scram_button_bg d) "darkgreen" (rod_scale_set d) in
    mkDisplay (status_var d) "SCRAM REACTOR" "darkred" (auto_button_bg d)
      (rod_scale_set d).

(** [n] consecutive calls of [reactor.update()]. *)
Definition ticks (n : nat) : list event := repeat Update n.

(** [es] holds no press of the SCRAM button. *)
Definition no_scram (es : list event) : Prop := ~ In Scram es.

(** The widgets that [scram_reactor] configures are disabled exactly when
    the reactor is scrammed. *)
Definition widgets_follow_scram (a : RBWRApp) : Prop :=
  rod_scale_state a = (if is_scrammed (reactor a) then DISABLED else NORMAL) /\
  circ_button_state a = (if is_scrammed (reactor a) then DISABLED else NORMAL).

(** * Properties *)

(** ** Proof steps *)

(** Reduce attribute reads of attribute writes. *)
Ltac fields :=
  lazy [fst snd negb thermal_power temperature pressure feedwater_flow
        turbine_speed generator_load rods_position circulation_flow
        xenon_poisoning fuel_remaining is_scrammed is_auto
        set_thermal_power set_temperature set_pressure set_feedwater_flow
        set_turbine_speed set_generator_load set_rods_position
        set_circulation_flow set_xenon_poisoning set_fuel_remaining
        set_is_scrammed set_is_auto update_normal update_scram auto_rods
        draw] in *.

(** Split on the tests that the goal makes with [<]. *)
Ltac split_tests :=
  repeat match goal with
  | |- context [if Py.ltb ?a ?b then _ else _] =>
      let E := fresh "E" in destruct (Py.ltb a b) eqn:E
  end.

(** Open the reactor [s], run the normal branch on it, and split on its
    tests: the mode first, then the comparisons. *)
Ltac split_normal s :=
  let au := fresh "au" in
  destruct s as [? ? ? ? ? ? ? ? ? ? ? au];
  destruct au; fields; split_tests.

(** ** Built-ins *)

Lemma ltb_lt (a b : Q) : Py.ltb a b = true <-> a < b.
Proof.
  unfold Py.ltb. rewrite negb_true_iff, <- not_true_iff_false, Qle_bool_iff.
  split; [apply Qnot_le_lt | apply Qlt_not_le].
Qed.

Lemma ltb_ge (a b : Q) : Py.ltb a b = false <-> b <= a.
Proof.
  unfold Py.ltb. rewrite negb_false_iff. apply Qle_bool_iff.
Qed.

Lemma max_ge_l (a b : Q) : a <= Py.max a b.
Proof.
  unfold Py.max. destruct (Py.ltb a b) eqn:E.
  - apply ltb_lt in E. lra.
  - lra.
Qed.

Lemma max_ge_r (a b : Q) : b <= Py.max a b.
Proof.
  unfold Py.max. destruct (Py.ltb a b) eqn:E.
  - lra.
  - apply ltb_ge in E. lra.
Qed.

Lemma max_le (a b c : Q) : a <= c -> b <= c -> Py.max a b <= c.
Proof. unfold Py.max. destruct (Py.ltb a b); trivial. Qed.

Lemma min_le_l (a b : Q) : Py.min a b <= a.
Proof.
  unfold Py.min. destruct (Py.ltb b a) eqn:E.
  - apply ltb_lt in E. lra.
  - lra.
Qed.

Lemma min_le_r (a b : Q) : Py.min a b <= b.
Proof.
  unfold Py.min. destruct (Py.ltb b a) eqn:E.
  - lra.
  - apply ltb_ge in E. lra.
Qed.

Lemma min_ge (a b c : Q) : c <= a -> c <= b -> c <= Py.min a b.
Proof. unfold Py.min. destruct (Py.ltb b a); trivial. Qed.

Lemma clamp_bounds (lo hi x : Q) :
  lo <= hi -> lo <= Py.max lo (Py.min hi x) <= hi.
Proof.
  intros H. split.
  - apply max_ge_l.
  - apply max_le; [exact H | apply min_le_l].
Qed.

Lemma int_is_integer (x : Q) : Py.is_integer (Py.int x) = true.
Proof.
  unfold Py.is_integer, Py.int. cbn [Qnum Qden inject_Z].
  rewrite Z.rem_1_r. reflexivity.
Qed.

(** ** The fields after one [update] *)

Lemma update_scrammed (u : rng) (k : nat) (s : RBWRReactor) :
  is_scrammed s = true -> update u k s = (update_scram s, k).
Proof. intros H. unfold update. rewrite H. reflexivity. Qed.

Lemma update_not_scrammed (u : rng) (k : nat) (s : RBWRReactor) :
  is_scrammed s = false -> update u k s = update_normal u k s.
Proof. intros H. unfold update. rewrite H. reflexivity. Qed.

Lemma update_normal_flags (u : rng) (k : nat) (s : RBWRReactor) :
  is_scrammed (fst (update_normal u k s)) = is_scrammed s /\
  is_auto (fst (update_normal u k s)) = is_auto s.
Proof. split_normal s; auto. Qed.

Lemma update_flags (u : rng) (k : nat) (s : RBWRReactor) :
  is_scrammed (fst (update u k s)) = is_scrammed s /\
  is_auto (fst (update u k s)) = is_auto s.
Proof.
  unfold update. destruct (is_scrammed s) eqn:E.
  - unfold update_scram. fields. auto.
  - rewrite <- E. apply update_normal_flags.
Qed.

(** Line 47: the new power is the clamped product, with [rod_effect] read
    from the rods position the tick started with. *)
Lemma update_normal_power (u : rng) (k : nat) (s : RBWRReactor) :
  thermal_power (fst (update_normal u k s)) =
  Py.max 0.0001
    (Py.min 120.0
       (thermal_power s * ((100 - rods_position s) / 100 * u k 0.95 1.05))).
Proof. split_normal s; reflexivity. Qed.

(** Lines 42, 44: rods in auto mode. *)
Lemma update_normal_rods_auto (u : rng) (k : nat) (s : RBWRReactor) :
  is_auto s = true ->
  rods_position (fst (update_normal u k s)) =
  if Py.ltb (thermal_power s) 95.0
  then Py.max 0 (rods_position s - 0.5)
  else Py.min 100 (rods_position s + 0.5).
Proof. intros H. split_normal s; try discriminate; reflexivity. Qed.

(** Lines 58, 59: rods in manual mode; the drift is the sixth draw. *)
Lemma update_normal_rods_manual (u : rng) (k : nat) (s : RBWRReactor) :
  is_auto s = false ->
  rods_position (fst (update_normal u k s)) =
  Py.max 0 (Py.min 100 (rods_position s + u (5 + k)%nat (-0.1) 0.1)).
Proof. intros H. split_normal s; try discriminate; reflexivity. Qed.

(** Lines 67, 68: xenon; the draw is the sixth in auto mode, the seventh in
    manual mode. *)
Lemma update_normal_xenon (u : rng) (k : nat) (s : RBWRReactor) :
  xenon_poisoning (fst (update_normal u k s)) =
  Py.min 35.0
    (10.1 + thermal_power (fst (update_normal u k s)) / 5 +
     u ((if is_auto s then 5 else 6) + k)%nat (-0.5) 0.5).
Proof. split_normal s; reflexivity. Qed.

(** Lines 71, 72: fuel. *)
Lemma update_normal_fuel (u : rng) (k : nat) (s : RBWRReactor) :
  fuel_remaining (fst (update_normal u k s)) =
  Py.max 0 (fuel_remaining s - 0.0001).
Proof. split_normal s; reflexivity. Qed.

(** Lines 51, 54: pressure and generator load are results of [int]. *)
Lemma update_normal_int (u : rng) (k : nat) (s : RBWRReactor) :
  exists p g : Q,
    pressure (fst (update_normal u k s)) = Py.int p /\
    generator_load (fst (update_normal u k s)) = Py.int g.
Proof. split_normal s; eexists; eexists; split; reflexivity. Qed.

Lemma update_scram_fields (s : RBWRReactor) :
  thermal_power (update_scram s) = thermal_power s * 0.7 /\
  pressure (update_scram s) = pressure s * 0.8 /\
  generator_load (update_scram s) = thermal_power s * 0.7 * 12 /\
  rods_position (update_scram s) = rods_position s /\
  xenon_poisoning (update_scram s) = xenon_poisoning s /\
  fuel_remaining (update_scram s) = fuel_remaining s.
Proof. unfold update_scram. fields. repeat split. Qed.

(** ** The application: frames of the callbacks *)

Lemma reactor_update_reactor (u : rng) (a : RBWRApp) :
  reactor (reactor_update u a) = fst (update u (rng_calls a) (reactor a)).
Proof.
  unfold reactor_update. destruct (update u (rng_calls a) (reactor a)).
  reflexivity.
Qed.

(** ** C1: declared domains across one [update] *)

(** C1, as stated, fails: the fresh reactor, scrammed, is in its declared
    domain, and one [update] takes the thermal power to 0.00007, below the
    declared minimum 0.0001. *)
Lemma scrammed_update_leaves_domain :
  in_domain scrammed_init /\
  is_scrammed scrammed_init = true /\
  thermal_power (fst (update stub_mid 0 scrammed_init)) == 0.00007 /\
  ~ in_domain (fst (update stub_mid 0 scrammed_init)).
Proof.
  split; [|split; [|split]].
  - unfold in_domain. cbn. repeat split; lra.
  - reflexivity.
  - vm_compute. reflexivity.
  - unfold in_domain. intros [[H _] _]. vm_compute in H. apply H. reflexivity.
Qed.

(** C1 (amended): for every starting state in its declared domain and every
    random source within the bounds of [random.uniform], an [update] of a
    reactor that is not scrammed leaves thermal power in [0.0001, 120],
    rods in [0, 100], xenon in [0, 35] and fuel in [0, 100]; an [update] of
    a scrammed reactor leaves rods, xenon and fuel as they were and
    multiplies the thermal power by 0.7, which keeps it in (0, 120] but
    not above 0.0001. *)
Theorem update_in_domain (u : rng) (k : nat) (s : RBWRReactor) :
  in_range u -> in_domain s ->
  (is_scrammed s = false -> in_domain (fst (update u k s))) /\
  (is_scrammed s = true ->
     thermal_power (fst (update u k s)) = thermal_power s * 0.7 /\
     0 < thermal_power (fst (update u k s)) <= 120.0 /\
     rods_position (fst (update u k s)) = rods_position s /\
     xenon_poisoning (fst (update u k s)) = xenon_poisoning s /\
     fuel_remaining (fst (update u k s)) = fuel_remaining s).
Proof.
  intros Hu (Hp & Hr & Hx & Hf). split; intros Hs.
  - rewrite update_not_scrammed by exact Hs.
    unfold in_domain.
    rewrite update_normal_xenon, update_normal_fuel, update_normal_power.
    set (p := Py.max 0.0001 _).
    assert (Hp' : 0.0001 <= p <= 120.0) by (apply clamp_bounds; lra).
    repeat split.
    + apply Hp'.
    + apply Hp'.
    + destruct (is_auto s) eqn:Ha.
      * rewrite update_normal_rods_auto by exact Ha.
        destruct (Py.ltb (thermal_power s) 95.0).
        -- apply max_ge_l.
        -- apply min_ge; lra.
      * rewrite update_normal_rods_manual by exact Ha. apply max_ge_l.
    + destruct (is_auto s) eqn:Ha.
      * rewrite update_normal_rods_auto by exact Ha.
        destruct (Py.ltb (thermal_power s) 95.0).
        -- apply max_le; lra.
        -- apply min_le_l.
      * rewrite update_normal_rods_manual by exact Ha.
        apply (clamp_bounds 0 100). lra.
    + apply min_ge; [lra|].
      pose proof (Hu ((if is_auto s then 5 else 6) + k)%nat (-0.5) 0.5
                    ltac:(lra)) as Hd.
      assert (0 <= p / 5) by (apply Qle_shift_div_l; lra).
      lra.
    + apply Qle_trans with 35.0; [apply min_le_l | lra].
    + apply max_ge_l.
    + apply max_le; lra.
  - rewrite update_scrammed by exact Hs. cbn [fst].
    destruct (update_scram_fields s) as (Ep & _ & _ & Er & Ex & Ef).
    rewrite Ep. repeat split; trivial; lra.
Qed.

Lemma stub_mid_in_range : in_range stub_mid.
Proof.
  intros k a b H. unfold stub_mid.
  split; [apply Qle_shift_div_l | apply Qle_shift_div_r]; lra.
Qed.

Lemma init_in_domain : in_domain init.
Proof. unfold in_domain. cbn. repeat split; lra. Qed.

Lemma update_in_domain_witness :
  in_range stub_mid /\ in_domain init /\
  in_domain (fst (update stub_mid 0 init)).
Proof.
  split; [exact stub_mid_in_range | split; [exact init_in_domain |]].
  apply (update_in_domain stub_mid 0 init stub_mid_in_range init_in_domain).
  reflexivity.
Defined.

(** ** C2: SCRAM and AUTO together *)

(** C2: the state after pressing SCRAM and then AUTO MODE on a fresh
    application has [is_scrammed] and [is_auto] both true, whatever the
    random source. *)
Theorem scram_then_auto_both_true (u : rng) :
  is_scrammed (reactor (run u app_init [Scram; Auto])) = true /\
  is_auto (reactor (run u app_init [Scram; Auto])) = true.
Proof. split; reflexivity. Qed.

Lemma step_exclusive (u : rng) (a : RBWRApp) (e : event) :
  (e = Auto -> is_scrammed (reactor a) = false) ->
  exclusive a -> exclusive (step u a e).
Proof.
  unfold exclusive. intros Hg H. destruct e; cbn [step].
  - rewrite reactor_update_reactor.
    destruct (update_flags u (rng_calls a) (reactor a)) as [-> ->]. exact H.
  - unfold update_loop. rewrite reactor_update_reactor.
    match goal with |- context [update u ?k ?r] =>
      destruct (update_flags u k r) as [-> ->] end.
    exact H.
  - unfold scram_reactor. destruct (is_scrammed (reactor a)); reflexivity.
  - unfold toggle_circulation.
    destruct (Py.ltb _ _); exact H.
  - cbn. rewrite (Hg eq_refl). reflexivity.
Qed.

(** What [scram_reactor] does enforce: as long as AUTO MODE is never
    pressed on a scrammed reactor, the two flags exclude each other. *)
Lemma exclusive_when_auto_guarded (u : rng) (es : list event) (a : RBWRApp) :
  exclusive a -> auto_only_unscrammed u a es -> exclusive (run u a es).
Proof.
  revert a. induction es as [|e es IH]; intros a Ha Hg.
  - exact Ha.
  - destruct Hg as [Hg Hes]. cbn [run fold_left]. apply IH.
    + apply step_exclusive; assumption.
    + exact Hes.
Qed.

(** ** C3: SCRAM *)

(** C3: pressing SCRAM on a reactor that is not scrammed leaves [is_auto]
    false (and [is_scrammed] true); every [update] of a scrammed reactor
    makes the thermal power 0.7 times and the pressure 0.8 times what they
    were, and calls [random.uniform] not once: the result is the same for
    every random source and the call count is unchanged. *)
Theorem scram_forces_manual_and_decays
        (u u' : rng) (k k' : nat) (a : RBWRApp) (s : RBWRReactor) :
  is_scrammed (reactor a) = false ->
  is_scrammed s = true ->
  is_auto (reactor (scram_reactor a)) = false /\
  is_scrammed (reactor (scram_reactor a)) = true /\
  thermal_power (fst (update u k s)) = thermal_power s * 0.7 /\
  pressure (fst (update u k s)) = pressure s * 0.8 /\
  update u k s = (fst (update u' k' s), k).
Proof.
  intros Ha Hs. unfold scram_reactor. rewrite Ha.
  rewrite !update_scrammed by exact Hs. cbn [fst reactor].
  destruct (update_scram_fields s) as (Ep & Epr & _).
  repeat split; assumption.
Qed.

Lemma scram_forces_manual_and_decays_witness :
  is_auto (reactor (scram_reactor (toggle_auto app_init))) = false /\
  thermal_power (fst (update stub_one 0 scrammed_init)) =
    thermal_power scrammed_init * 0.7 /\
  pressure (fst (update stub_one 0 scrammed_init)) =
    pressure scrammed_init * 0.8.
Proof.
  pose proof (scram_forces_manual_and_decays stub_one stub_mid 0 3
                (toggle_auto app_init) scrammed_init eq_refl eq_refl)
    as (H1 & _ & H2 & H3 & _).
  exact (conj H1 (conj H2 H3)).
Defined.

(** ** C4: auto mode *)

(** Compatibility of the built-ins with equality of rationals. *)
Lemma ltb_comp (a a' b b' : Q) :
  a == a' -> b == b' -> Py.ltb a b = Py.ltb a' b'.
Proof. intros Ha Hb. unfold Py.ltb. rewrite Ha, Hb. reflexivity. Qed.

Lemma max_comp (a a' b b' : Q) :
  a == a' -> b == b' -> Py.max a b == Py.max a' b'.
Proof.
  intros Ha Hb. unfold Py.max. rewrite (ltb_comp a a' b b' Ha Hb).
  destruct (Py.ltb a' b'); assumption.
Qed.

Lemma min_comp (a a' b b' : Q) :
  a == a' -> b == b' -> Py.min a b == Py.min a' b'.
Proof.
  intros Ha Hb. unfold Py.min. rewrite (ltb_comp b b' a a' Hb Ha).
  destruct (Py.ltb b' a'); assumption.
Qed.

(** C4, as stated, fails: with the power draw at 1, [update] takes the rods
    from 10 to 9.5 and the power from 50 to 45 = 50 * (100 - 10) / 100; with
    [rodEffect] read from the adjusted rods it would be 45.25. *)
Lemma auto_power_reads_rods_before_adjustment :
  is_scrammed auto_half_power = false /\
  is_auto auto_half_power = true /\
  rods_position (fst (update stub_mid 0 auto_half_power)) == 9.5 /\
  thermal_power (fst (update stub_mid 0 auto_half_power)) == 45 /\
  spec_auto_power stub_mid 0 auto_half_power == 45.25 /\
  ~ thermal_power (fst (update stub_mid 0 auto_half_power))
    == spec_auto_power stub_mid 0 auto_half_power.
Proof.
  repeat split; try (intros H; vm_compute in H; discriminate H).
Qed.

(** C4 (amended): in an [update] with [is_scrammed] false and [is_auto]
    true, the rods move by 0.5 toward the 95 % target (down, not below 0,
    when the power is below 95; up, not above 100, otherwise) and stay
    there; the new power is
    [clamp (power * rodEffect * uniform(0.95, 1.05), 0.0001, 120.0)] where
    [rodEffect = (100 - rods) / 100] is read from the rods position the
    tick started with, before the adjustment. *)
Theorem update_auto (u : rng) (k : nat) (s : RBWRReactor) :
  is_scrammed s = false ->
  is_auto s = true ->
  rods_position (fst (update u k s)) =
    (if Py.ltb (thermal_power s) 95.0
     then Py.max 0 (rods_position s - 0.5)
     else Py.min 100 (rods_position s + 0.5)) /\
  thermal_power (fst (update u k s)) ==
    Py.max 0.0001
      (Py.min 120.0
         (thermal_power s * ((100 - rods_position s) / 100)
          * u k 0.95 1.05)).
Proof.
  intros Hs Ha. rewrite update_not_scrammed by exact Hs. split.
  - apply update_normal_rods_auto. exact Ha.
  - rewrite update_normal_power.
    apply max_comp; [reflexivity|].
    apply min_comp; [reflexivity|].
    apply Qmult_assoc.
Qed.

Lemma update_auto_witness :
  rods_position (fst (update stub_mid 0 auto_half_power)) =
    Py.max 0 (10 - 0.5) /\
  thermal_power (fst (update stub_mid 0 auto_half_power)) ==
    Py.max 0.0001
      (Py.min 120.0 (50 * ((100 - 10) / 100) * stub_mid 0%nat 0.95 1.05)).
Proof.
  exact (update_auto stub_mid 0 auto_half_power eq_refl eq_refl).
Defined.

(** ** C5: one tick from rest *)

(** C5, as stated, fails: with every draw stubbed to 1.0 the noise terms
    are 1, not 0, so the temperature is 31.0003 and the pressure is
    [int(0.006 + 1) = 1]. *)
Lemma tick_from_rest_all_draws_one :
  thermal_power (fst (update stub_one 0 at_rest)) == 0.0001 /\
  temperature (fst (update stub_one 0 at_rest)) == 31.0003 /\
  pressure (fst (update stub_one 0 at_rest)) == 1 /\
  ~ temperature (fst (update stub_one 0 at_rest)) == 30 + 0.0001 * 3 + 0 /\
  ~ pressure (fst (update stub_one 0 at_rest)) == 0.
Proof.
  repeat split; intros H; vm_compute in H; discriminate H.
Qed.

(** C5 (amended): from rods 0, circulation 100, manual, not scrammed and
    power 0.0001, one tick with every draw stubbed to 1.0 yields power
    0.0001, temperature [30 + 0.0001*3 + 1 = 31.0003] and pressure
    [int(0.0001*60 + 1) = 1]; the values 30.0003 and 0 are what the tick
    yields when every draw is the middle of its interval (1.0 for the power
    factor, 0 for each noise term). *)
Theorem tick_from_rest :
  (thermal_power (fst (update stub_one 0 at_rest)) == 0.0001 /\
   temperature (fst (update stub_one 0 at_rest)) == 30 + 0.0001 * 3 + 1 /\
   pressure (fst (update stub_one 0 at_rest)) == 1) /\
  (thermal_power (fst (update stub_mid 0 at_rest)) == 0.0001 /\
   temperature (fst (update stub_mid 0 at_rest)) == 30 + 0.0001 * 3 + 0 /\
   pressure (fst (update stub_mid 0 at_rest)) == 0).
Proof. repeat split. Qed.

(** ** Steps of the application, attribute by attribute *)

Lemma update_fuel (u : rng) (k : nat) (s : RBWRReactor) :
  fuel_remaining (fst (update u k s)) =
  if is_scrammed s then fuel_remaining s
  else Py.max 0 (fuel_remaining s - 0.0001).
Proof.
  unfold update. destruct (is_scrammed s).
  - apply update_scram_fields.
  - apply update_normal_fuel.
Qed.

Lemma update_power (u : rng) (k : nat) (s : RBWRReactor) :
  thermal_power (fst (update u k s)) =
  if is_scrammed s then thermal_power s * 0.7
  else Py.max 0.0001
         (Py.min 120.0
            (thermal_power s
             * ((100 - rods_position s) / 100 * u k 0.95 1.05))).
Proof.
  unfold update. destruct (is_scrammed s).
  - apply update_scram_fields.
  - apply update_normal_power.
Qed.

(** What a step can do to the fuel: nothing, or burn 0.0001 down to 0. *)
Lemma step_fuel (u : rng) (a : RBWRApp) (e : event) :
  fuel_remaining (reactor (step u a e)) = fuel_remaining (reactor a) \/
  fuel_remaining (reactor (step u a e)) =
  Py.max 0 (fuel_remaining (reactor a) - 0.0001).
Proof.
  destruct e; cbn [step].
  - rewrite reactor_update_reactor, update_fuel.
    destruct (is_scrammed (reactor a)); auto.
  - unfold update_loop. rewrite reactor_update_reactor, update_fuel.
    cbn [reactor set_reactor fuel_remaining is_scrammed set_rods_position].
    destruct (is_scrammed (reactor a)); auto.
  - left. unfold scram_reactor. destruct (is_scrammed (reactor a)); reflexivity.
  - left. unfold toggle_circulation. destruct (Py.ltb _ _); reflexivity.
  - left. reflexivity.
Qed.

(** What a step can do to the power: nothing, decay it by 0.7, or clamp it
    to at least 0.0001. *)
Lemma step_power (u : rng) (a : RBWRApp) (e : event) :
  thermal_power (reactor (step u a e)) = thermal_power (reactor a) \/
  thermal_power (reactor (step u a e)) = thermal_power (reactor a) * 0.7 \/
  0.0001 <= thermal_power (reactor (step u a e)).
Proof.
  destruct e; cbn [step].
  - rewrite reactor_update_reactor, update_power.
    destruct (is_scrammed (reactor a)); auto using max_ge_l.
  - unfold update_loop. rewrite reactor_update_reactor, update_power.
    cbn [reactor set_reactor thermal_power is_scrammed set_rods_position].
    destruct (is_scrammed (reactor a)); auto using max_ge_l.
  - left. unfold scram_reactor. destruct (is_scrammed (reactor a)); reflexivity.
  - left. unfold toggle_circulation. destruct (Py.ltb _ _); reflexivity.
  - left. reflexivity.
Qed.

(** ** C6: the fuel never grows *)

Lemma step_fuel_le (u : rng) (a : RBWRApp) (e : event) :
  0 <= fuel_remaining (reactor a) ->
  0 <= fuel_remaining (reactor (step u a e)) <= fuel_remaining (reactor a).
Proof.
  intros H. destruct (step_fuel u a e) as [-> | ->].
  - lra.
  - split; [apply max_ge_l | apply max_le; lra].
Qed.

(** C6: from every state of the data model (fuel not negative), after any
    sequence of ticks, in any mix of scrammed and normal modes (the
    buttons and the slider may act between ticks) and for every outcome of
    the random draws, the fuel is at most what it was before. *)
Theorem fuel_never_increases (u : rng) (es : list event) (a : RBWRApp) :
  0 <= fuel_remaining (reactor a) ->
  fuel_remaining (reactor (run u a es)) <= fuel_remaining (reactor a).
Proof.
  revert a. induction es as [|e es IH]; intros a H.
  - cbn. lra.
  - cbn [run fold_left].
    destruct (step_fuel_le u a e H) as [H0 H1].
    apply Qle_trans with (fuel_remaining (reactor (step u a e))).
    + apply IH. exact H0.
    + exact H1.
Qed.

Lemma fuel_never_increases_witness :
  fuel_remaining
    (reactor (run stub_low app_init [Update; Scram; Update; Scram; Loop 40]))
  <= fuel_remaining (reactor app_init).
Proof.
  apply (fuel_never_increases stub_low
           [Update; Scram; Update; Scram; Loop 40] app_init).
  cbn. lra.
Defined.

(** Outside the data model the bound is needed: [max(0, ...)] lifts a
    negative fuel to 0. *)
Lemma negative_fuel_is_lifted :
  fuel_remaining (fst (update stub_mid 0 (set_fuel_remaining (-1) init))) == 0.
Proof. reflexivity. Qed.

(** ** C10: the power stays positive *)

(** C10: in every state reached from the fresh application by any sequence
    of events, for every outcome of the random draws, the thermal power is
    strictly positive. *)
Theorem thermal_power_positive (u : rng) (es : list event) :
  0 < thermal_power (reactor (run u app_init es)).
Proof.
  assert (H : 0 < thermal_power (reactor app_init)) by (cbn; lra).
  revert H. generalize app_init as a.
  induction es as [|e es IH]; intros a H.
  - exact H.
  - cbn [run fold_left]. apply IH.
    destruct (step_power u a e) as [-> | [-> | H']]; lra.
Qed.

(** The decay does take the power of a reachable state below 0.0001. *)
Lemma thermal_power_below_floor :
  thermal_power (reactor (run stub_mid app_init [Scram; Update])) < 0.0001.
Proof. vm_compute. reflexivity. Qed.

(** ** C7: SCRAM then RESET SCRAM *)

(** C7: on a reactor that is not scrammed, pressing SCRAM and then RESET
    SCRAM with no tick in between leaves [is_auto] false and every other
    attribute of the reactor as it was before ([is_scrammed] is false
    again); no draw is made. *)
Theorem scram_then_reset (a : RBWRApp) :
  is_scrammed (reactor a) = false ->
  is_auto (reactor (scram_reactor (scram_reactor a))) = false /\
  thermal_power (reactor (scram_reactor (scram_reactor a)))
    = thermal_power (reactor a) /\
  temperature (reactor (scram_reactor (scram_reactor a)))
    = temperature (reactor a) /\
  pressure (reactor (scram_reactor (scram_reactor a)))
    = pressure (reactor a) /\
  feedwater_flow (reactor (scram_reactor (scram_reactor a)))
    = feedwater_flow (reactor a) /\
  turbine_speed (reactor (scram_reactor (scram_reactor a)))
    = turbine_speed (reactor a) /\
  generator_load (reactor (scram_reactor (scram_reactor a)))
    = generator_load (reactor a) /\
  rods_position (reactor (scram_reactor (scram_reactor a)))
    = rods_position (reactor a) /\
  circulation_flow (reactor (scram_reactor (scram_reactor a)))
    = circulation_flow (reactor a) /\
  xenon_poisoning (reactor (scram_reactor (scram_reactor a)))
    = xenon_poisoning (reactor a) /\
  fuel_remaining (reactor (scram_reactor (scram_reactor a)))
    = fuel_remaining (reactor a) /\
  is_scrammed (reactor (scram_reactor (scram_reactor a))) = false /\
  rng_calls (scram_reactor (scram_reactor a)) = rng_calls a.
Proof.
  intros H. unfold scram_reactor. rewrite H. cbn. repeat split.
Qed.

Lemma scram_then_reset_witness :
  is_auto (reactor (scram_reactor (scram_reactor (toggle_auto app_init))))
    = false /\
  fuel_remaining
    (reactor (scram_reactor (scram_reactor (toggle_auto app_init))))
    = fuel_remaining (reactor (toggle_auto app_init)).
Proof.
  pose proof (scram_then_reset (toggle_auto app_init) eq_refl) as H.
  split; apply H.
Defined.

(** ** C8: the circulation toggle *)

(** C8: [toggle_circulation] sets the circulation flow to 100 when it is
    below 50 and to 0 otherwise, and changes nothing else (no other
    attribute of the reactor, no widget, no draw); so from a flow below 50
    the first call yields 100 and the second yields 0. *)
Theorem toggle_circulation_two_state (a : RBWRApp) :
  circulation_flow (reactor (toggle_circulation a)) =
    (if Py.ltb (circulation_flow (reactor a)) 50 then 100 else 0) /\
  toggle_circulation a =
    set_reactor
      (set_circulation_flow
         (circulation_flow (reactor (toggle_circulation a))) (reactor a)) a /\
  (circulation_flow (reactor a) < 50 ->
   circulation_flow (reactor (toggle_circulation a)) = 100 /\
   circulation_flow (reactor (toggle_circulation (toggle_circulation a)))
     = 0).
Proof.
  assert (F : forall b, circulation_flow (reactor (toggle_circulation b)) =
                        if Py.ltb (circulation_flow (reactor b)) 50
                        then 100 else 0).
  { intros b. unfold toggle_circulation.
    destruct (Py.ltb (circulation_flow (reactor b)) 50); reflexivity. }
  split; [apply F | split].
  - rewrite F. unfold toggle_circulation.
    destruct (Py.ltb (circulation_flow (reactor a)) 50); reflexivity.
  - intros H. apply ltb_lt in H. rewrite (F (toggle_circulation a)), F, H.
    split; reflexivity.
Qed.

Lemma toggle_circulation_two_state_witness :
  circulation_flow (reactor (toggle_circulation app_init)) = 100 /\
  circulation_flow (reactor (toggle_circulation (toggle_circulation app_init)))
    = 0.
Proof.
  apply (toggle_circulation_two_state app_init). cbn. lra.
Defined.

(** ** C9: integer-valued pressure and generator load *)

(** An [update] of a reactor that is not scrammed stores results of [int]
    in [pressure] and [generator_load]. *)
Lemma update_normal_integers (u : rng) (k : nat) (s : RBWRReactor) :
  is_scrammed s = false ->
  Py.is_integer (pressure (fst (update u k s))) = true /\
  Py.is_integer (generator_load (fst (update u k s))) = true.
Proof.
  intros H. rewrite update_not_scrammed by exact H.
  destruct (update_normal_int u k s) as (p & g & -> & ->).
  split; apply int_is_integer.
Qed.

(** C9: the SCRAM branch stores products, not results of [int].  On a
    fresh application, SCRAM and one tick leave the generator load at
    0.00084 MW, for every random source; after one normal tick with every
    draw at the lower end of its interval (pressure -99 kPa), SCRAM and one
    more tick leave the pressure at -79.2 kPa. *)
Theorem scrammed_update_not_integer (u : rng) :
  generator_load (reactor (run u app_init [Scram; Update])) == 0.00084 /\
  Py.is_integer (generator_load (reactor (run u app_init [Scram; Update])))
    = false /\
  pressure (reactor (run stub_low app_init [Update; Scram; Update]))
    == -79.2 /\
  Py.is_integer
    (pressure (reactor (run stub_low app_init [Update; Scram; Update])))
    = false.
Proof. repeat split. Qed.

(** * Further properties of the code *)

(** ** [int] on rationals *)





(** ** The other attributes after a normal [update] *)






Lemma update_normal_circulation (u : rng) (k : nat) (s : RBWRReactor) :
  circulation_flow (fst (update_normal u k s)) =
  Py.min 100 (Py.max 0 (circulation_flow s)).
Proof. split_normal s; reflexivity. Qed.

Lemma update_normal_calls (u : rng) (k : nat) (s : RBWRReactor) :
  snd (update_normal u k s) = ((if is_auto s then 6 else 7) + k)%nat.
Proof. split_normal s; reflexivity. Qed.

Lemma update_normal_power_bounds (u : rng) (k : nat) (s : RBWRReactor) :
  0.0001 <= thermal_power (fst (update_normal u k s)) <= 120.0.
Proof. rewrite update_normal_power. apply clamp_bounds. lra. Qed.

(** ** Calls of [random.uniform] per tick *)

(** X1: a tick of a scrammed reactor makes no call of [random.uniform], a
    tick in auto mode makes six and a tick in manual mode makes seven (the
    rod drift is the extra one). *)
Theorem update_calls (u : rng) (k : nat) (s : RBWRReactor) :
  snd (update u k s) =
  ((if is_scrammed s then 0 else if is_auto s then 6 else 7) + k)%nat.
Proof.
  unfold update. destruct (is_scrammed s).
  - reflexivity.
  - apply update_normal_calls.
Qed.

(** ** Ranges of the derived readings *)


Lemma stub_low_in_range : in_range stub_low.
Proof. intros k a b H. unfold stub_low. lra. Qed.


(** The lower bounds are reached: with every draw at the lower end, the
    fresh reactor reads -99 kPa and -49 RPM after one tick. *)
Lemma readings_reach_lower_bounds :
  pressure (fst (update stub_low 0 init)) == -99 /\
  turbine_speed (fst (update stub_low 0 init)) == -49.
Proof. split; reflexivity. Qed.

(** ** Xenon *)

(** X3: the cap [min(35.0, ...)] on xenon never takes effect.  After a tick
    of a reactor that is not scrammed, with every draw within bounds, xenon
    is exactly [10.1 + power / 5 + noise] for the new power and lies in
    [9.6, 34.6]. *)
Theorem xenon_cap_never_binds (u : rng) (k : nat) (s : RBWRReactor) :
  in_range u ->
  is_scrammed s = false ->
  xenon_poisoning (fst (update u k s)) =
    10.1 + thermal_power (fst (update u k s)) / 5
    + u ((if is_auto s then 5 else 6) + k)%nat (-0.5) 0.5 /\
  9.6 <= xenon_poisoning (fst (update u k s)) <= 34.6.
Proof.
  intros Hu Hs. rewrite update_not_scrammed by exact Hs.
  rewrite update_normal_xenon.
  pose proof (update_normal_power_bounds u k s) as Hp.
  set (p := thermal_power (fst (update_normal u k s))) in *.
  pose proof (Hu ((if is_auto s then 5 else 6) + k)%nat (-0.5) 0.5
                ltac:(lra)) as Hd.
  set (d := u _ (-0.5) 0.5) in *.
  assert (H5 : 0.00002 <= p / 5 <= 24).
  { split; [apply Qle_shift_div_l | apply Qle_shift_div_r]; lra. }
  assert (E : Py.ltb (10.1 + p / 5 + d) 35.0 = true) by (apply ltb_lt; lra).
  unfold Py.min. rewrite E. split; [reflexivity | lra].
Qed.

Lemma xenon_cap_never_binds_witness :
  9.6 <= xenon_poisoning (fst (update stub_low 0 init)) <= 34.6.
Proof.
  apply (xenon_cap_never_binds stub_low 0 init stub_low_in_range eq_refl).
Defined.

(** ** Power *)

(** X4: with the rods fully inserted (position 100) one tick of a reactor
    that is not scrammed takes the thermal power to the floor 0.0001, from
    any power and for any draw, in manual and in auto mode. *)
Theorem rods_fully_inserted (u : rng) (k : nat) (s : RBWRReactor) :
  is_scrammed s = false ->
  rods_position s == 100 ->
  thermal_power (fst (update u k s)) = 0.0001.
Proof.
  intros Hs Hr. rewrite update_power, Hs.
  set (y := thermal_power s * _).
  assert (Hy : y == 0).
  { unfold y. rewrite Hr. field. }
  unfold Py.max, Py.min.
  assert (E1 : Py.ltb y 120.0 = true) by (apply ltb_lt; lra).
  assert (E2 : Py.ltb 0.0001 y = false) by (apply ltb_ge; lra).
  rewrite E1, E2. reflexivity.
Qed.

Lemma rods_fully_inserted_witness :
  thermal_power
    (fst (update stub_one 0
            (set_rods_position 100 (set_thermal_power 80 init)))) = 0.0001.
Proof.
  apply (rods_fully_inserted stub_one 0
           (set_rods_position 100 (set_thermal_power 80 init)) eq_refl).
  reflexivity.
Defined.

(** X5: a tick raises the thermal power by at most 5 %: for a reactor that
    is not scrammed, with power at least 0.0001, rods not below 0 and the
    power draw within [0.95, 1.05], the new power is at most 1.05 times
    the old one. *)
Theorem power_growth_capped (u : rng) (k : nat) (s : RBWRReactor) :
  in_range u ->
  is_scrammed s = false ->
  0.0001 <= thermal_power s ->
  0 <= rods_position s ->
  thermal_power (fst (update u k s)) <= thermal_power s * 1.05.
Proof.
  intros Hu Hs Hp Hr. rewrite update_power, Hs.
  pose proof (Hu k 0.95 1.05 ltac:(lra)) as Hd.
  set (d := u k 0.95 1.05) in *.
  set (e := (100 - rods_position s) / 100).
  assert (He : e <= 1).
  { unfold e. apply Qle_shift_div_r; lra. }
  assert (Hed : e * d <= 1.05).
  { apply Qle_trans with (1 * d); [|lra].
    apply Qmult_le_compat_r; lra. }
  assert (Hy : thermal_power s * (e * d) <= thermal_power s * 1.05).
  { rewrite !(Qmult_comm (thermal_power s)).
    apply Qmult_le_compat_r; lra. }
  apply max_le; [lra|].
  apply Qle_trans with (thermal_power s * (e * d)); [apply min_le_r | exact Hy].
Qed.

Lemma power_growth_capped_witness :
  thermal_power (fst (update stub_mid 0 init)) <= thermal_power init * 1.05.
Proof.
  apply (power_growth_capped stub_mid 0 init stub_mid_in_range eq_refl);
    cbn; lra.
Defined.

(** X6: the new thermal power depends on nothing but the scram flag, the
    old power, the rods position and (when not scrammed) the first draw of
    the tick: fuel, xenon, circulation, temperature and the auto flag have
    no effect on it.  A reactor with no fuel left runs like a full one. *)
Theorem power_ignores_the_rest (u : rng) (k : nat) (s1 s2 : RBWRReactor) :
  is_scrammed s1 = is_scrammed s2 ->
  thermal_power s1 = thermal_power s2 ->
  rods_position s1 = rods_position s2 ->
  thermal_power (fst (update u k s1)) = thermal_power (fst (update u k s2)).
Proof.
  intros Hs Hp Hr. rewrite !update_power, Hs, Hp, Hr. reflexivity.
Qed.

Lemma power_ignores_the_rest_witness :
  thermal_power (fst (update stub_mid 0 init)) =
  thermal_power
    (fst (update stub_mid 0
            (set_is_auto true
               (set_fuel_remaining 0 (set_xenon_poisoning 35 init))))).
Proof.
  apply (power_ignores_the_rest stub_mid 0 init
           (set_is_auto true
              (set_fuel_remaining 0 (set_xenon_poisoning 35 init))));
    reflexivity.
Defined.

(** ** Runs of ticks *)





Lemma update_scram_rest (s : RBWRReactor) :
  temperature (update_scram s) = temperature s - 5 /\
  turbine_speed (update_scram s) = turbine_speed s * 0.9 /\
  feedwater_flow (update_scram s) = feedwater_flow s /\
  circulation_flow (update_scram s) = circulation_flow s /\
  is_scrammed (update_scram s) = is_scrammed s /\
  is_auto (update_scram s) = is_auto s.
Proof. destruct s. repeat split. Qed.



(** Seven scrammed ticks take the fresh reactor from 31 degrees to -4. *)
Lemma scram_temperature_below_zero :
  temperature (reactor (run stub_one (scram_reactor app_init) (ticks 7)))
    == -4.
Proof. reflexivity. Qed.



(** ** Modes and widgets *)

Lemma step_flags (u : rng) (a : RBWRApp) (e : event) :
  (e <> Scram ->
   is_scrammed (reactor (step u a e)) = is_scrammed (reactor a)) /\
  (e <> Scram -> e <> Auto ->
   is_auto (reactor (step u a e)) = is_auto (reactor a)).
Proof.
  assert (L : forall slider,
             is_scrammed (reactor (update_loop u slider a))
               = is_scrammed (reactor a) /\
             is_auto (reactor (update_loop u slider a))
               = is_auto (reactor a)).
  { intros slider. unfold update_loop. rewrite reactor_update_reactor.
    apply (update_flags u (rng_calls a)
             (set_rods_position slider (reactor a))). }
  destruct e; cbn [step]; split; intros; try congruence.
  - rewrite reactor_update_reactor. apply update_flags.
  - rewrite reactor_update_reactor. apply update_flags.
  - apply L.
  - apply L.
  - unfold toggle_circulation. destruct (Py.ltb _ _); reflexivity.
  - unfold toggle_circulation. destruct (Py.ltb _ _); reflexivity.
  - reflexivity.
Qed.

(** X9: only the buttons change the mode.  Over any sequence of events
    with no press of SCRAM the scram flag is what it was, so a scrammed
    reactor stays scrammed however many ticks pass; with no press of SCRAM
    or AUTO MODE the auto flag is what it was. *)
Theorem mode_changes_only_by_buttons
        (u : rng) (es : list event) (a : RBWRApp) :
  no_scram es ->
  is_scrammed (reactor (run u a es)) = is_scrammed (reactor a) /\
  (~ In Auto es -> is_auto (reactor (run u a es)) = is_auto (reactor a)).
Proof.
  unfold no_scram. revert a. induction es as [|e es IH]; intros a Hn.
  - split; reflexivity.
  - cbn [run fold_left].
    assert (He : e <> Scram) by (intros ->; apply Hn; left; reflexivity).
    assert (Hes : ~ In Scram es) by (intros H; apply Hn; right; exact H).
    destruct (IH (step u a e) Hes) as [H1 H2].
    destruct (step_flags u a e) as [F1 F2].
    split.
    + unfold run in H1. rewrite H1. apply F1. exact He.
    + intros Ha. unfold run in H2. rewrite H2.
      * apply F2; [exact He|]. intros ->. apply Ha. left. reflexivity.
      * intros H. apply Ha. right. exact H.
Qed.

Lemma mode_changes_only_by_buttons_witness :
  is_scrammed
    (reactor (run stub_mid (scram_reactor app_init)
                [Update; Auto; Loop 30; Circulation]))
  = is_scrammed (reactor (scram_reactor app_init)).
Proof.
  apply (mode_changes_only_by_buttons stub_mid
           [Update; Auto; Loop 30; Circulation] (scram_reactor app_init)).
  unfold no_scram. cbn. intros [H | [H | [H | [H | H]]]];
    try discriminate H; exact H.
Defined.

Lemma step_widgets (u : rng) (a : RBWRApp) (e : event) :
  widgets_follow_scram a -> widgets_follow_scram (step u a e).
Proof.
  unfold widgets_follow_scram. intros [H1 H2].
  destruct e; cbn [step].
  - rewrite reactor_update_reactor.
    destruct (update_flags u (rng_calls a) (reactor a)) as [-> _].
    unfold reactor_update. destruct (update _ _ _). split; assumption.
  - unfold update_loop. rewrite reactor_update_reactor.
    match goal with |- context [update u ?k ?r] =>
      destruct (update_flags u k r) as [-> _] end.
    unfold reactor_update. destruct (update _ _ _). split; assumption.
  - unfold scram_reactor.
    destruct (is_scrammed (reactor a)); split; reflexivity.
  - unfold toggle_circulation. destruct (Py.ltb _ _); split; assumption.
  - split; assumption.
Qed.

(** X10: in every state reached from the fresh application, the rod scale
    and the circulation button are disabled exactly when the reactor is
    scrammed. *)
Theorem widgets_disabled_iff_scrammed (u : rng) (es : list event) :
  widgets_follow_scram (run u app_init es).
Proof.
  assert (H : widgets_follow_scram app_init) by (split; reflexivity).
  revert H. generalize app_init as a.
  induction es as [|e es IH]; intros a H.
  - exact H.
  - cbn [run fold_left]. apply IH. apply step_widgets. exact H.
Qed.

Lemma step_circulation (u : rng) (a : RBWRApp) (e : event) :
  circulation_flow (reactor a) = 0 \/ circulation_flow (reactor a) = 100 ->
  circulation_flow (reactor (step u a e)) = 0 \/
  circulation_flow (reactor (step u a e)) = 100.
Proof.
  intros H.
  assert (U : forall k r,
             circulation_flow r = 0 \/ circulation_flow r = 100 ->
             circulation_flow (fst (update u k r)) = circulation_flow r).
  { intros k r Hr. unfold update. destruct (is_scrammed r).
    - apply update_scram_rest.
    - rewrite update_normal_circulation.
      destruct Hr as [-> | ->]; reflexivity. }
  destruct e; cbn [step].
  - rewrite reactor_update_reactor, U; assumption.
  - unfold update_loop. rewrite reactor_update_reactor, U; exact H.
  - unfold scram_reactor. destruct (is_scrammed (reactor a)); exact H.
  - unfold toggle_circulation. destruct (Py.ltb _ _); [right | left];
      reflexivity.
  - exact H.
Qed.

(** X11: in every state reached from the fresh application the circulation
    flow is 0 or 100, so the clamp of line 62 changes nothing there. *)
Theorem circulation_is_0_or_100 (u : rng) (es : list event) :
  circulation_flow (reactor (run u app_init es)) = 0 \/
  circulation_flow (reactor (run u app_init es)) = 100.
Proof.
  assert (H : circulation_flow (reactor app_init) = 0 \/
              circulation_flow (reactor app_init) = 100)
    by (left; reflexivity).
  revert H. generalize app_init as a.
  induction es as [|e es IH]; intros a H.
  - exact H.
  - cbn [run fold_left]. apply IH. apply step_circulation. exact H.
Qed.

(** X12: [toggle_auto] is an involution: two presses of AUTO MODE give the
    application back as it was, in every state. *)
Theorem toggle_auto_twice (a : RBWRApp) :
  toggle_auto (toggle_auto a) = a.
Proof.
  destruct a as [r rs cs k]. destruct r. unfold toggle_auto, set_reactor.
  cbn. rewrite negb_involutive. reflexivity.
Qed.

(** ** The slider and the rods *)

Lemma update_loop_reactor (u : rng) (slider : Q) (a : RBWRApp) :
  reactor (update_loop u slider a) =
  fst (update u (rng_calls a) (set_rods_position slider (reactor a))).
Proof. unfold update_loop. rewrite reactor_update_reactor. reflexivity. Qed.

(** X13: an iteration of [update_loop] leaves the rods where the slider
    is, whatever they were before: exactly at the slider reading when
    scrammed (the write of line 207 is not guarded), within 0.5 of it in
    auto mode and within 0.1 of it in manual mode, and inside [0, 100], for
    a slider reading in [0, 100] and draws within bounds. *)
Theorem loop_rods_follow_slider (u : rng) (slider : Q) (a : RBWRApp) :
  in_range u ->
  0 <= slider <= 100 ->
  (is_scrammed (reactor a) = true ->
   rods_position (reactor (update_loop u slider a)) = slider) /\
  (is_scrammed (reactor a) = false -> is_auto (reactor a) = true ->
   slider - 0.5 <= rods_position (reactor (update_loop u slider a))
     <= slider + 0.5 /\
   0 <= rods_position (reactor (update_loop u slider a)) <= 100) /\
  (is_scrammed (reactor a) = false -> is_auto (reactor a) = false ->
   slider - 0.1 <= rods_position (reactor (update_loop u slider a))
     <= slider + 0.1 /\
   0 <= rods_position (reactor (update_loop u slider a)) <= 100).
Proof.
  intros Hu Hsl. rewrite update_loop_reactor.
  set (r := set_rods_position slider (reactor a)).
  assert (Er : rods_position r = slider) by reflexivity.
  assert (Es : is_scrammed r = is_scrammed (reactor a)) by reflexivity.
  assert (Ea : is_auto r = is_auto (reactor a)) by reflexivity.
  split; [|split].
  - intros Hs. rewrite update_scrammed by (rewrite Es; exact Hs).
    cbn [fst]. destruct (update_scram_fields r) as (_ & _ & _ & -> & _).
    exact Er.
  - intros Hs Ha. rewrite update_not_scrammed by (rewrite Es; exact Hs).
    rewrite update_normal_rods_auto by (rewrite Ea; exact Ha). rewrite Er.
    destruct (Py.ltb (thermal_power r) 95.0).
    + pose proof (max_ge_l 0 (slider - 0.5)).
      pose proof (max_ge_r 0 (slider - 0.5)).
      pose proof (max_le 0 (slider - 0.5) slider ltac:(lra) ltac:(lra)).
      repeat split; lra.
    + pose proof (min_le_l 100 (slider + 0.5)).
      pose proof (min_le_r 100 (slider + 0.5)).
      pose proof (min_ge 100 (slider + 0.5) slider ltac:(lra) ltac:(lra)).
      repeat split; lra.
  - intros Hs Ha. rewrite update_not_scrammed by (rewrite Es; exact Hs).
    rewrite update_normal_rods_manual by (rewrite Ea; exact Ha). rewrite Er.
    pose proof (Hu (5 + rng_calls a)%nat (-0.1) 0.1 ltac:(lra)) as Hd.
    set (y := slider + u _ (-0.1) 0.1).
    assert (Hy : slider - 0.1 <= y <= slider + 0.1) by (unfold y; lra).
    pose proof (clamp_bounds 0 100 y ltac:(lra)).
    pose proof (max_ge_r 0 (Py.min 100 y)).
    pose proof (min_ge 100 y (slider - 0.1) ltac:(lra) ltac:(lra)).
    pose proof (min_le_r 100 y).
    pose proof (max_le 0 (Py.min 100 y) (slider + 0.1)
                  ltac:(lra) ltac:(lra)).
    repeat split; lra.
Qed.

Lemma loop_rods_follow_slider_witness :
  rods_position (reactor (update_loop stub_mid 40 (scram_reactor app_init)))
    = 40 /\
  (40 - 0.5
   <= rods_position (reactor (update_loop stub_mid 40 (toggle_auto app_init)))
   <= 40 + 0.5) /\
  (40 - 0.1
   <= rods_position (reactor (update_loop stub_mid 40 app_init))
   <= 40 + 0.1).
Proof.
  assert (H : 0 <= 40 <= 100) by (split; lra).
  split; [|split].
  - apply (loop_rods_follow_slider stub_mid 40 (scram_reactor app_init)
             stub_mid_in_range H). reflexivity.
  - apply (loop_rods_follow_slider stub_mid 40 (toggle_auto app_init)
             stub_mid_in_range H); reflexivity.
  - apply (loop_rods_follow_slider stub_mid 40 app_init
             stub_mid_in_range H); reflexivity.
Defined.

(** ** The status display *)

(** X14: after [update_display] the status bar names the mode: it reads
    SCRAMMED exactly when the reactor is scrammed, AUTO MODE ACTIVE exactly
    when it is not scrammed and in auto mode, MANUAL CONTROL exactly when
    it is in neither; the text that [setup_ui] starts with is never shown
    again; the SCRAM button reads RESET SCRAM exactly when scrammed. *)
Theorem update_display_status (a : RBWRApp) (d : Display) :
  (status_var (update_display a d) = "Status: SCRAMMED - RODS INSERTING"%string
   <-> is_scrammed (reactor a) = true) /\
  (status_var (update_display a d) = "Status: AUTO MODE ACTIVE"%string
   <-> is_scrammed (reactor a) = false /\ is_auto (reactor a) = true) /\
  (status_var (update_display a d) = "Status: MANUAL CONTROL"%string
   <-> is_scrammed (reactor a) = false /\ is_auto (reactor a) = false) /\
  status_var (update_display a d) <> status_var setup_ui /\
  (scram_button_text (update_display a d) = "RESET SCRAM"%string
   <-> is_scrammed (reactor a) = true).
Proof.
  unfold update_display.
  destruct (is_scrammed (reactor a)), (is_auto (reactor a)); cbn;
    repeat split; intros; try discriminate; try reflexivity;
    repeat match goal with H : _ /\ _ |- _ => destruct H end;
    discriminate.
Qed.

(** X15: while the reactor is scrammed the display does not show the auto
    flag: [update_display] gives the same display whether AUTO MODE was
    pressed or not, and leaves the AUTO MODE button's colour and the rod
    scale as they were. *)
Theorem scrammed_display_hides_auto (a : RBWRApp) (d : Display) :
  is_scrammed (reactor a) = true ->
  update_display (toggle_auto a) d = update_display a d /\
  auto_button_bg (update_display a d) = auto_button_bg d /\
  rod_scale_set (update_display a d) = rod_scale_set d.
Proof.
  intros H. unfold update_display, toggle_auto. cbn. rewrite H. cbn.
  repeat split.
Qed.

Lemma scrammed_display_hides_auto_witness :
  update_display (toggle_auto (scram_reactor app_init)) setup_ui =
  update_display (scram_reactor app_init) setup_ui.
Proof.
  apply (scrammed_display_hides_auto (scram_reactor app_init) setup_ui).
  reflexivity.
Defined.
